(** * px4_params_diff: parse, compare and export PX4 parameter files

    A shallow embedding of [px4_params_diff.py] and the properties of its
    parser, comparator and entry point.

    - Python's [str] is a sequence of Unicode code points: [list N].
    - A [dict] from names to values is a [gmap (list N) (list N)].
    - The [set] of keys that [compare_params] iterates has no specified
      order: the order is an interface ([SetIteration]) of which the
      theorems use nothing but that it enumerates the set once.
    - File access and [print] act on an explicit [World]; [open] can raise,
      and so can writing text that the stream cannot encode. *)

From Stdlib Require Import NArith String Ascii.
From stdpp Require Import gmap list sets.

Local Open Scope N_scope.

(** ** Python strings *)

Module Py.

(** An ASCII literal of the source as a sequence of code points. *)
Definition lit (s : string) : list N :=
  map N_of_ascii (list_ascii_of_string s).

Definition LF : N := 10.
Definition CR : N := 13.

(** [str.isspace] on one code point: the characters that [str.split()] and
    [str.strip()] take as whitespace. *)
Definition isspace (c : N) : bool :=
  ((0x09 <=? c) && (c <=? 0x0D)) || ((0x1C <=? c) && (c <=? 0x20))
  || (c =? 0x85) || (c =? 0xA0) || (c =? 0x1680)
  || ((0x2000 <=? c) && (c <=? 0x200A))
  || (c =? 0x2028) || (c =? 0x2029) || (c =? 0x202F) || (c =? 0x205F)
  || (c =? 0x3000).

(** [s.startswith(prefix)] *)
Fixpoint startswith (s prefix : list N) {struct prefix} : bool :=
  match prefix, s with
  | [], _ => true
  | _ :: _, [] => false
  | p :: prefix', c :: s' => (c =? p) && startswith s' prefix'
  end.

Fixpoint lstrip (s : list N) : list N :=
  match s with
  | [] => []
  | c :: s' => if isspace c then lstrip s' else s
  end.

Definition rstrip (s : list N) : list N := rev (lstrip (rev s)).

(** [s.strip()] *)
Definition strip (s : list N) : list N := rstrip (lstrip s).

(** The truth value of a string: non-empty. *)
Definition truthy (s : list N) : bool :=
  match s with [] => false | _ :: _ => true end.

(** [s.split()]: the maximal runs of non-whitespace characters, in order.
    [tok] holds the run being read, last character first. *)
Fixpoint split_from (tok s : list N) : list (list N) :=
  match s with
  | [] => match tok with [] => [] | _ :: _ => [rev tok] end
  | c :: s' =>
      if isspace c
      then match tok with
           | [] => split_from [] s'
           | _ :: _ => rev tok :: split_from [] s'
           end
      else split_from (c :: tok) s'
  end.

Definition split (s : list N) : list (list N) := split_from [] s.

(** Reading a text file opened with the default [newline=None]: every
    [\r\n] and every lone [\r] is read as [\n]. *)
Fixpoint universal_newlines (s : list N) : list N :=
  match s with
  | [] => []
  | c :: s' =>
      if c =? CR
      then LF :: match s' with
                 | d :: s'' => if d =? LF then universal_newlines s''
                               else universal_newlines s'
                 | [] => []
                 end
      else c :: universal_newlines s'
  end.

(** Iterating a file yields its lines, each with its [\n] kept; the last
    line has none when the text does not end in one. [cur] is the line
    being read, last character first. *)
Fixpoint lines_from (cur s : list N) : list (list N) :=
  match s with
  | [] => match cur with [] => [] | _ :: _ => [rev cur] end
  | c :: s' =>
      if c =? LF then rev (c :: cur) :: lines_from [] s'
      else lines_from (c :: cur) s'
  end.

Definition readlines (text : list N) : list (list N) :=
  lines_from [] (universal_newlines text).

(** A surrogate code point. A [str] can hold one (a path given on the
    command line does, where its bytes are not valid text), and UTF-8
    encodes every character but these. *)
Definition surrogate (c : N) : bool := (0xD800 <=? c) && (c <=? 0xDFFF).

(** [s.encode("utf-8")] does not raise. *)
Definition utf8_encodable (s : list N) : bool :=
  forallb (fun c => negb (surrogate c)) s.

End Py.

(** ** The parser *)

(** One turn of the loop of [parse_params], on the dictionary built so far. *)
Definition parse_line (params : gmap (list N) (list N)) (line : list N)
  : gmap (list N) (list N) :=
  if Py.startswith line (Py.lit "#") || negb (Py.truthy (Py.strip line))
  then params
  else
    let parts := Py.split line in
    if negb (length parts =? 5)%nat
    then params
    else match parts with
         | [_; _; name; value; _] => <[name := value]> params
         | _ => params
         end.

(** The loop of [parse_params] over the lines of the file. *)
Definition parse_lines (lines : list (list N)) : gmap (list N) (list N) :=
  fold_left parse_line lines ∅.


(** ** The world: files, standard output, exceptions *)

(** What [open] raises when it cannot open the file at [path], and what
    writing to a text stream raises on text that its encoding rejects. *)
Inductive exn : Type :=
  | OSError (path : list N)
  | UnicodeEncodeError.

Inductive outcome (A : Type) : Type :=
  | Returns (a : A)
  | Raises (e : exn).
Arguments Returns {A} a.
Arguments Raises {A} e.

(** [files] holds the decoded text of every file that exists, [unwritable]
    the paths that cannot be opened for writing, [stdout] the lines printed
    so far, oldest first. *)
Record World : Type := mkWorld {
  files : gmap (list N) (list N);
  unwritable : gset (list N);
  stdout : list (list N)
}.

Definition IO (A : Type) : Type := World -> outcome A * World.

Definition ret {A} (a : A) : IO A := fun w => (Returns a, w).

Definition bind {A B} (m : IO A) (k : A -> IO B) : IO B :=
  fun w => match m w with
           | (Returns a, w') => k a w'
           | (Raises e, w') => (Raises e, w')
           end.

#[global] Instance IO_ret : MRet IO := @ret.
#[global] Instance IO_bind : MBind IO := fun A B k m => bind m k.

(** [for x in xs: body x] *)
Fixpoint for_each {A} (xs : list A) (body : A -> IO unit) : IO unit :=
  match xs with
  | [] => ret tt
  | x :: xs' => body x;; for_each xs' body
  end.

(** [open(path, "r", encoding="utf-8")] and the iteration of its lines. *)
Definition open_read (path : list N) : IO (list (list N)) :=
  fun w => match files w !! path with
           | Some text => (Returns (Py.readlines text), w)
           | None => (Raises (OSError path), w)
           end.

(** [open(path, "w", newline="", encoding="utf-8")]: the file is created,
    or emptied when it exists. *)
Definition open_write (path : list N) : IO unit :=
  fun w => if decide (path ∈ unwritable w)
           then (Raises (OSError path), w)
           else (Returns tt,
                 mkWorld (<[path := []]> (files w)) (unwritable w) (stdout w)).

(** Writing [text] at the end of the file opened at [path] with
    [encoding="utf-8"]: text that UTF-8 cannot encode raises and none of it
    is written; what was written before stays in the file. *)
Definition write (path text : list N) : IO unit :=
  fun w => if Py.utf8_encodable text
           then (Returns tt,
                 mkWorld (<[path := default [] (files w !! path) ++ text]> (files w))
                         (unwritable w) (stdout w))
           else (Raises UnicodeEncodeError, w).

(** The encoding of standard output and its error handler are set by the
    environment of the process: [stdout_encodes] tells the characters
    beyond ASCII that they accept. ASCII they always accept. *)
Class Stdout : Type := {
  stdout_encodes : N -> bool
}.

(** A terminal in UTF-8 that is strict on errors. *)
#[global] Instance utf8_stdout : Stdout :=
  {| stdout_encodes := fun c => negb (Py.surrogate c) |}.

Definition printable `{Stdout} (msg : list N) : bool :=
  forallb (fun c => (c <? 0x80) || stdout_encodes c) msg.

(** [print(msg)]: a message that standard output cannot encode raises and
    nothing of it is printed. *)
Definition print `{Stdout} (msg : list N) : IO unit :=
  fun w => if printable msg
           then (Returns tt,
                 mkWorld (files w) (unwritable w) (stdout w ++ [msg]))
           else (Raises UnicodeEncodeError, w).

(** ** [csv.writer] with its default dialect *)

Module Csv.

Definition comma : N := 44.
Definition quotechar : N := 34.

(** A field is quoted when it holds the delimiter, the quote character or
    a character of the line terminator. *)
Definition special (c : N) : bool :=
  (c =? comma) || (c =? quotechar) || (c =? Py.CR) || (c =? Py.LF).

Definition escape (c : N) : list N :=
  if c =? quotechar then [quotechar; quotechar] else [c].

Definition field (f : list N) : list N :=
  if existsb special f
  then quotechar :: flat_map escape f ++ [quotechar]
  else f.

Fixpoint join (fields : list (list N)) : list N :=
  match fields with
  | [] => []
  | [f] => f
  | f :: fields' => f ++ comma :: join fields'
  end.

(** The text that [writerow] writes; a row of one empty field is
    written as a pair of quotes. *)
Definition row (fields : list (list N)) : list N :=
  match fields with
  | [[]] => [quotechar; quotechar; Py.CR; Py.LF]
  | _ => join (map field fields) ++ [Py.CR; Py.LF]
  end.

End Csv.

(** ** The program *)

(** The order in which a [for] loop visits a set. *)
Class SetIteration : Type := {
  set_iter : gset (list N) -> list (list N);
  set_iter_perm : forall X, set_iter X ≡ₚ elements X
}.

#[global] Instance elements_iteration : SetIteration :=
  {| set_iter := elements; set_iter_perm := fun X => reflexivity (elements X) |}.

Definition NA : list N := Py.lit "N/A".

(** [d.get(key, dflt)] *)
Definition dict_get (d : gmap (list N) (list N)) (key dflt : list N) : list N :=
  default dflt (d !! key).

Definition parse_params (file_path : list N) : IO (gmap (list N) (list N)) :=
  lines ← open_read file_path;
  mret (parse_lines lines).

(** One turn of the loop of [compare_params]. *)
Definition compare_key (params1 params2 : gmap (list N) (list N))
    (differences : list (list N * list N * list N)) (key : list N)
  : list (list N * list N * list N) :=
  let value1 := dict_get params1 key NA in
  let value2 := dict_get params2 key NA in
  if bool_decide (value1 ≠ value2)
  then differences ++ [(key, value1, value2)]
  else differences.

Definition keys_to_compare (params1 params2 : gmap (list N) (list N))
    (common_only : bool) : gset (list N) :=
  if common_only then dom params1 ∩ dom params2
  else dom params1 ∪ dom params2.

Definition compare_params `{SetIteration}
    (params1 params2 : gmap (list N) (list N)) (common_only : bool)
  : list (list N * list N * list N) :=
  fold_left (compare_key params1 params2)
            (set_iter (keys_to_compare params1 params2 common_only)) [].

Definition export_to_csv (differences : list (list N * list N * list N))
    (output_file : list N) : IO unit :=
  open_write output_file;;
  write output_file
    (Csv.row [Py.lit "PARAMETER"; Py.lit "FILE1_VALUE"; Py.lit "FILE2_VALUE"]);;
  for_each differences (fun '(key, value1, value2) =>
    write output_file (Csv.row [key; value1; value2])).

Definition main `{SetIteration} `{Stdout} (file1 file2 output_file : list N)
    (common_only : bool) : IO unit :=
  params1 ← parse_params file1;
  params2 ← parse_params file2;
  let differences := compare_params params1 params2 common_only in
  match differences with
  | _ :: _ =>
      export_to_csv differences output_file;;
      print (Py.lit "Differences exported to " ++ output_file)
  | [] => print (Py.lit "No differences found.")
  end.


(** ** What the specification calls things *)

(** The first character of [line] that is not whitespace, if any. *)
Definition first_nonspace (line : list N) : option N := head (Py.lstrip line).

Definition hash : N := 35.

(** A data line as the parser sees it: it does not start with [#] and has
    exactly five tokens, of which the third names the parameter and the
    fourth is its value. *)
Definition data_line (line : list N) : option (list N * list N) :=
  if Py.startswith line (Py.lit "#") then None
  else match Py.split line with
       | [_; _; name; value; _] => Some (name, value)
       | _ => None
       end.

(** The parameter names of a report. *)
Definition report_names (report : list (list N * list N * list N))
  : gset (list N) :=
  list_to_set (report.*1.*1).

(** The record of [key], when its two values differ. *)
Definition difference (params1 params2 : gmap (list N) (list N))
    (key : list N) : option (list N * list N * list N) :=
  let value1 := dict_get params1 key NA in
  let value2 := dict_get params2 key NA in
  if bool_decide (value1 ≠ value2) then Some (key, value1, value2) else None.

(** A data line as the specification words it: the first character that is
    not whitespace is not [#], and the line has exactly five tokens. *)
Definition spec_data_line (line : list N) : option (list N * list N) :=
  match first_nonspace line with
  | None => None
  | Some c =>
      if c =? hash then None
      else match Py.split line with
           | [_; _; name; value; _] => Some (name, value)
           | _ => None
           end
  end.

(** The row of a record can be written to the output file. *)
Definition row_encodable (r : list N * list N * list N) : bool :=
  let '(key, value1, value2) := r in
  Py.utf8_encodable (Csv.row [key; value1; value2]).

(** The records whose rows get written: those before the first one whose
    row cannot be. *)
Fixpoint written_records (differences : list (list N * list N * list N))
  : list (list N * list N * list N) :=
  match differences with
  | [] => []
  | r :: differences' =>
      if row_encodable r then r :: written_records differences' else []
  end.

(** The text of the file that [export_to_csv] leaves. *)
Definition csv_text (differences : list (list N * list N * list N)) : list N :=
  Csv.row [Py.lit "PARAMETER"; Py.lit "FILE1_VALUE"; Py.lit "FILE2_VALUE"]
  ++ concat (map (fun '(key, value1, value2) => Csv.row [key; value1; value2])
                 differences).

(** A token: a string that is not empty and holds no whitespace. *)
Definition is_token (t : list N) : bool :=
  Py.truthy t && forallb (λ c, negb (Py.isspace c)) t.

(** [text] with every [\n] written as [\r\n]. *)
Definition crlf (text : list N) : list N :=
  flat_map (λ c, if c =? Py.LF then [Py.CR; Py.LF] else [c]) text.

(** A record with its two values exchanged. *)
Definition swap_record (r : list N * list N * list N)
  : list N * list N * list N :=
  let '(key, value1, value2) := r in (key, value2, value1).

(** ** Two small parameter files *)

Module Scenario.

Definition file1 : list N := Py.lit "a.params".
Definition file2 : list N := Py.lit "b.params".
Definition output_file : list N := Py.lit "diff.csv".

Definition text1 : list N := Py.lit "# airframe
1 1 PARAM_A 5 6
1 1 PARAM_B 3 6
1 1 PARAM_D 9
".

Definition text2 : list N := Py.lit "1 1 PARAM_A 7 6
".

(** A file whose last line has whitespace before its [#]. *)
Definition file3 : list N := Py.lit "c.params".

Definition text3 : list N := Py.lit "1 1 P 4 6
1 1 P 5 6
 # x P 7 y
".

Definition params1 : gmap (list N) (list N) := parse_lines (Py.readlines text1).
Definition params2 : gmap (list N) (list N) := parse_lines (Py.readlines text2).

Definition world : World :=
  mkWorld (<[file1 := text1]> (<[file2 := text2]> ∅)) ∅ [].

End Scenario.

(** ** Strings *)

Section Strings.

Lemma startswith_hash line :
  Py.startswith line (Py.lit "#") = true ↔ head line = Some hash.
Proof.
  change (Py.lit "#") with [hash].
  destruct line as [|c line]; simpl; [split; discriminate|].
  rewrite andb_true_r, N.eqb_eq.
  split; [intros ->; reflexivity | intros [= ->]; reflexivity].
Qed.

Lemma lstrip_nil s : Py.lstrip s = [] ↔ forallb Py.isspace s = true.
Proof.
  induction s as [|c s IH]; simpl; [tauto|].
  destruct (Py.isspace c); simpl; [exact IH | split; discriminate].
Qed.

Lemma lstrip_head_nonspace s c :
  head (Py.lstrip s) = Some c → Py.isspace c = false.
Proof.
  induction s as [|d s IH]; simpl; [discriminate|].
  destruct (Py.isspace d) eqn:Hd; simpl; [exact IH | congruence].
Qed.

Lemma strip_nil s : Py.strip s = [] ↔ forallb Py.isspace s = true.
Proof.
  rewrite <- lstrip_nil. unfold Py.strip, Py.rstrip.
  split.
  - intros Hs. destruct (Py.lstrip s) as [|c t] eqn:Hl; [reflexivity|].
    exfalso.
    assert (Hc : Py.isspace c = false)
      by (apply (lstrip_head_nonspace s); rewrite Hl; reflexivity).
    apply (f_equal (@rev N)) in Hs. rewrite rev_involutive in Hs.
    simpl in Hs. apply lstrip_nil in Hs.
    rewrite forallb_forall in Hs.
    specialize (Hs c). rewrite Hc in Hs.
    discriminate Hs. simpl. apply in_or_app. right. left. reflexivity.
  - intros ->. reflexivity.
Qed.

Lemma split_from_nil tok s :
  Py.split_from tok s = [] ↔ tok = [] ∧ forallb Py.isspace s = true.
Proof.
  revert tok. induction s as [|c s IH]; intros tok; simpl.
  - destruct tok; split; try tauto; try discriminate.
    intros [? _]; discriminate.
  - destruct (Py.isspace c); simpl.
    + destruct tok.
      * rewrite IH. tauto.
      * split; [discriminate | intros [? _]; discriminate].
    + rewrite IH. split; [intros [? _]; discriminate | intros [_ ?]; discriminate].
Qed.

(** A line has no token exactly when stripping it leaves nothing. *)
Lemma split_nil_strip s : Py.split s = [] ↔ Py.strip s = [].
Proof.
  unfold Py.split. rewrite split_from_nil, strip_nil. tauto.
Qed.

Lemma truthy_strip_split s :
  Py.truthy (Py.strip s) = false ↔ Py.split s = [].
Proof.
  rewrite split_nil_strip. destruct (Py.strip s); simpl; split;
    congruence.
Qed.

(** A line that the specification does not call a comment does not start
    with [#]. *)
Lemma first_nonspace_startswith line :
  first_nonspace line ≠ Some hash →
  Py.startswith line (Py.lit "#") = false.
Proof.
  intros Hn. destruct (Py.startswith line (Py.lit "#")) eqn:Hs; [|reflexivity].
  exfalso. apply Hn. apply startswith_hash in Hs.
  destruct line as [|c line]; [discriminate|].
  injection Hs as ->. reflexivity.
Qed.

End Strings.

(** ** The parser *)

Section Parser.

Implicit Types (params : gmap (list N) (list N)) (line : list N).

(** [parse_line] writes the entry of a data line and leaves the
    dictionary alone on every other line. *)
Lemma parse_line_data_line params line :
  parse_line params line =
    match data_line line with
    | Some (name, value) => <[name := value]> params
    | None => params
    end.
Proof.
  unfold parse_line, data_line.
  destruct (Py.startswith line (Py.lit "#")); simpl; [reflexivity|].
  destruct (Py.truthy (Py.strip line)) eqn:Ht; simpl.
  - destruct (Py.split line) as [|? [|? [|? [|? [|? [|? ?]]]]]]; reflexivity.
  - apply truthy_strip_split in Ht. rewrite Ht. reflexivity.
Qed.

Lemma data_line_split line name value :
  data_line line = Some (name, value) ↔
  Py.startswith line (Py.lit "#") = false
  ∧ ∃ t1 t2 t5, Py.split line = [t1; t2; name; value; t5].
Proof.
  unfold data_line.
  destruct (Py.startswith line (Py.lit "#")).
  { split; [discriminate | intros [? _]; discriminate]. }
  destruct (Py.split line) as [|t1 [|t2 [|n [|v [|t5 [|? ?]]]]]];
    try (split; [discriminate | intros [_ (? & ? & ? & [=])]]).
  split.
  - intros [= -> ->]. eauto 6.
  - intros [_ (? & ? & ? & [= _ _ -> -> _])]. reflexivity.
Qed.

Lemma parse_lines_app before after :
  parse_lines (before ++ after) = fold_left parse_line after (parse_lines before).
Proof. unfold parse_lines. apply fold_left_app. Qed.

(** Lines that do not write [name] leave its entry as it was. *)
Lemma fold_parse_line_other name lines params :
  (∀ l v, l ∈ lines → data_line l ≠ Some (name, v)) →
  fold_left parse_line lines params !! name = params !! name.
Proof.
  revert params. induction lines as [|l lines IH]; intros params Hl; simpl;
    [reflexivity|].
  rewrite IH by (intros l' v Hin; apply Hl; right; exact Hin).
  rewrite parse_line_data_line.
  destruct (data_line l) as [[n v]|] eqn:Hd; [|reflexivity].
  apply lookup_insert_ne. intros ->.
  apply (Hl l v); [left | exact Hd].
Qed.

End Parser.

(** ** Claims on the parser *)

(** C1, as stated, fails: a line whose first non-whitespace character is [#]
    but that has whitespace before it is parsed like any other line, and
    with five tokens it writes an entry. *)
Lemma indented_hash_line_is_parsed :
  first_nonspace (Py.lit " # a B 1 c") = Some hash
  ∧ parse_line ∅ (Py.lit " # a B 1 c") = {[ Py.lit "B" := Py.lit "1" ]}
  ∧ parse_line ∅ (Py.lit " # a B 1 c") ≠ ∅.
Proof.
  split; [reflexivity|]. split; [vm_compute; reflexivity|].
  intros Heq. apply (f_equal (λ m, m !! Py.lit "B")) in Heq.
  vm_compute in Heq. discriminate Heq.
Qed.

(** C1, amended: every line whose first character is [#] leaves the
    dictionary as it was, whatever its tokens, five of them included. *)
Theorem hash_line_skipped (params : gmap (list N) (list N)) (line : list N) :
  head line = Some hash → parse_line params line = params.
Proof.
  intros Hh. apply startswith_hash in Hh.
  unfold parse_line. rewrite Hh. reflexivity.
Qed.

Lemma hash_line_skipped_witness :
  length (Py.split (Py.lit "# comment PARAM_C 1 1")) = 5%nat
  ∧ parse_line ∅ (Py.lit "# comment PARAM_C 1 1") = ∅.
Proof.
  split; [reflexivity|].
  apply (hash_line_skipped ∅ (Py.lit "# comment PARAM_C 1 1")). reflexivity.
Defined.



(** C4, as stated, fails. The file below names [P] on two data lines of
    the specification, the last of which gives it the value 5; its third
    line is a comment for the specification, its first character that is
    not whitespace being [#], yet the parser reads its five tokens and the
    dictionary maps [P] to 7. *)
Lemma indented_hash_line_overwrites :
  Py.readlines Scenario.text3
  = [Py.lit "1 1 P 4 6" ++ [Py.LF]; Py.lit "1 1 P 5 6" ++ [Py.LF];
     Py.lit " # x P 7 y" ++ [Py.LF]]
  ∧ spec_data_line (Py.lit "1 1 P 4 6" ++ [Py.LF]) = Some (Py.lit "P", Py.lit "4")
  ∧ spec_data_line (Py.lit "1 1 P 5 6" ++ [Py.LF]) = Some (Py.lit "P", Py.lit "5")
  ∧ spec_data_line (Py.lit " # x P 7 y" ++ [Py.LF]) = None
  ∧ parse_params Scenario.file3 (mkWorld {[ Scenario.file3 := Scenario.text3 ]} ∅ [])
    = (Returns {[ Py.lit "P" := Py.lit "7" ]},
       mkWorld {[ Scenario.file3 := Scenario.text3 ]} ∅ []).
Proof. repeat split; vm_compute; reflexivity. Qed.

(** C4, amended: with a data line taken as the parser takes it (a line that
    does not start with [#] and has exactly five tokens, so that a line of
    five tokens with whitespace before its [#] is one), [parse_params] on a
    file that can be read returns, changes nothing in the world, and maps
    every name to the value of the last data line that names it. *)
Theorem last_data_line_wins (w : World) (file_path text : list N)
    (before after : list (list N)) (line name value : list N) :
  files w !! file_path = Some text →
  Py.readlines text = before ++ line :: after →
  data_line line = Some (name, value) →
  (∀ l v, l ∈ after → data_line l ≠ Some (name, v)) →
  ∃ params,
    parse_params file_path w = (Returns params, w)
    ∧ params !! name = Some value.
Proof.
  intros Hf Hl Hd Hafter.
  exists (parse_lines (Py.readlines text)). split.
  - unfold parse_params, mbind, IO_bind, bind, open_read. rewrite Hf. reflexivity.
  - rewrite Hl, parse_lines_app. simpl.
    rewrite fold_parse_line_other by exact Hafter.
    rewrite parse_line_data_line, Hd. apply lookup_insert_eq.
Qed.

Lemma last_data_line_wins_witness :
  ∃ params,
    parse_params (Py.lit "a.params")
      (mkWorld {[ Py.lit "a.params" := Py.lit "1 1 P 5 6
1 1 P 7 6
1 1 Q 8 6" ]} ∅ [])
    = (Returns params,
       mkWorld {[ Py.lit "a.params" := Py.lit "1 1 P 5 6
1 1 P 7 6
1 1 Q 8 6" ]} ∅ [])
    ∧ params !! Py.lit "P" = Some (Py.lit "7").
Proof.
  apply (last_data_line_wins _ _ (Py.lit "1 1 P 5 6
1 1 P 7 6
1 1 Q 8 6") [Py.lit "1 1 P 5 6
"] [Py.lit "1 1 Q 8 6"] (Py.lit "1 1 P 7 6
")).
  - vm_compute. reflexivity.
  - vm_compute. reflexivity.
  - vm_compute. reflexivity.
  - intros l v Hin. apply list_elem_of_singleton in Hin. subst l.
    vm_compute. discriminate.
Defined.

(** ** The comparator *)

Section Comparator.

Implicit Types (A B : gmap (list N) (list N)) (key : list N).

(** The loop appends, in the order of the keys, the records of the keys
    whose values differ. *)
Lemma fold_compare_key A B keys acc :
  fold_left (compare_key A B) keys acc = acc ++ omap (difference A B) keys.
Proof.
  revert acc. induction keys as [|key keys IH]; intros acc; simpl.
  - symmetry. apply app_nil_r.
  - rewrite IH. unfold compare_key, difference.
    destruct (bool_decide _); [|reflexivity].
    rewrite <- app_assoc. reflexivity.
Qed.

Lemma compare_params_omap `{SetIteration} A B common_only :
  compare_params A B common_only =
    omap (difference A B) (set_iter (keys_to_compare A B common_only)).
Proof. unfold compare_params. apply fold_compare_key. Qed.

Lemma elem_of_set_iter `{SetIteration} (X : gset (list N)) key :
  key ∈ set_iter X ↔ key ∈ X.
Proof. rewrite (set_iter_perm X). apply elem_of_elements. Qed.

Lemma NoDup_set_iter `{SetIteration} (X : gset (list N)) : NoDup (set_iter X).
Proof. rewrite (set_iter_perm X). apply NoDup_elements. Qed.

Lemma difference_Some A B key r :
  difference A B key = Some r ↔
  r = (key, dict_get A key NA, dict_get B key NA)
  ∧ dict_get A key NA ≠ dict_get B key NA.
Proof.
  unfold difference. case_bool_decide as Hne.
  - split; [intros [= <-]; auto | intros [-> _]; reflexivity].
  - split; [discriminate | intros [_ ?]; contradiction].
Qed.

Lemma elem_of_keys_to_compare A B common_only key :
  key ∈ keys_to_compare A B common_only ↔
  if common_only then is_Some (A !! key) ∧ is_Some (B !! key)
  else is_Some (A !! key) ∨ is_Some (B !! key).
Proof.
  unfold keys_to_compare. destruct common_only.
  - rewrite elem_of_intersection, !elem_of_dom. reflexivity.
  - rewrite elem_of_union, !elem_of_dom. reflexivity.
Qed.

(** Membership in the report of [compare_params]. *)
Lemma elem_of_compare_params `{SetIteration} A B common_only key v1 v2 :
  (key, v1, v2) ∈ compare_params A B common_only ↔
  key ∈ keys_to_compare A B common_only
  ∧ v1 = dict_get A key NA ∧ v2 = dict_get B key NA ∧ v1 ≠ v2.
Proof.
  rewrite compare_params_omap, list_elem_of_omap. split.
  - intros (k & Hk & Hd). apply difference_Some in Hd as [[= -> -> ->] Hne].
    apply elem_of_set_iter in Hk. auto.
  - intros (Hk & -> & -> & Hne). exists key. split.
    + apply elem_of_set_iter. exact Hk.
    + apply difference_Some. auto.
Qed.

Lemma omap_difference_keys A B keys :
  (omap (difference A B) keys).*1.*1 `sublist_of` keys.
Proof.
  induction keys as [|key keys IH]; simpl; [constructor|].
  unfold difference at 1. destruct (bool_decide _); simpl.
  - apply sublist_skip. exact IH.
  - apply sublist_cons. exact IH.
Qed.

End Comparator.

(** ** Claims on the comparator *)

(** C2: the report holds the record [(key, value1, value2)] exactly when
    [key] is a candidate (in both dictionaries when [common_only], in one of
    them otherwise), [value1] and [value2] are the values of [key] in the
    two dictionaries, ["N/A"] standing for a missing one, and they are
    different strings; and no key has two records. *)
Theorem compare_params_records `{SetIteration}
    (A B : gmap (list N) (list N)) (common_only : bool) :
  (∀ key v1 v2,
     (key, v1, v2) ∈ compare_params A B common_only ↔
     (if common_only then key ∈ dom A ∧ key ∈ dom B
      else key ∈ dom A ∨ key ∈ dom B)
     ∧ v1 = default (Py.lit "N/A") (A !! key)
     ∧ v2 = default (Py.lit "N/A") (B !! key)
     ∧ v1 ≠ v2)
  ∧ NoDup ((compare_params A B common_only).*1.*1).
Proof.
  split.
  - intros key v1 v2. rewrite elem_of_compare_params.
    unfold keys_to_compare. destruct common_only.
    + rewrite elem_of_intersection. reflexivity.
    + rewrite elem_of_union. reflexivity.
  - rewrite compare_params_omap.
    eapply sublist_NoDup; [apply NoDup_set_iter | apply omap_difference_keys].
Qed.

(** C5: swapping the two dictionaries swaps the two values of every
    record, whatever the order in which either run visits its keys. *)
Theorem compare_params_swap (order1 order2 : SetIteration)
    (A B : gmap (list N) (list N)) (common_only : bool) (key v1 v2 : list N) :
  (key, v1, v2) ∈ @compare_params order1 A B common_only ↔
  (key, v2, v1) ∈ @compare_params order2 B A common_only.
Proof.
  rewrite !elem_of_compare_params, !elem_of_keys_to_compare.
  destruct common_only; intuition congruence.
Qed.

(** C6: the names reported when only common parameters are compared are
    among the names reported when all are. *)
Theorem common_only_names_subset `{SetIteration} (A B : gmap (list N) (list N)) :
  report_names (compare_params A B true) ⊆ report_names (compare_params A B false).
Proof.
  intros key. unfold report_names. rewrite !elem_of_list_to_set.
  rewrite !list_elem_of_fmap.
  intros (kv & -> & Hkv).
  apply list_elem_of_fmap in Hkv as ([[k v1] v2] & -> & Hin).
  exists (k, v1). split; [reflexivity|].
  apply list_elem_of_fmap. exists (k, v1, v2). split; [reflexivity|].
  revert Hin. rewrite !elem_of_compare_params, !elem_of_keys_to_compare.
  intuition auto.
Qed.

(** C9: the two values of a record are different strings, and its key is
    in one of the dictionaries at least: ["N/A"] never stands for a missing
    value on both sides. *)
Theorem record_values_differ `{SetIteration} (A B : gmap (list N) (list N))
    (common_only : bool) (key v1 v2 : list N) :
  (key, v1, v2) ∈ compare_params A B common_only →
  v1 ≠ v2
  ∧ ¬ (A !! key = None ∧ B !! key = None)
  ∧ ¬ (v1 = Py.lit "N/A" ∧ v2 = Py.lit "N/A").
Proof.
  rewrite elem_of_compare_params, elem_of_keys_to_compare.
  intros (Hk & -> & -> & Hne). split; [exact Hne|]. split.
  - intros [HA HB]. rewrite HA, HB in Hk.
    destruct common_only; [destruct Hk as [[? [=]] _] | destruct Hk as [[? [=]]|[? [=]]]].
  - intros [H1 H2]. apply Hne. rewrite H1, H2. reflexivity.
Qed.

(** C10: when only common parameters are compared, the key of a record is
    in both dictionaries and its two values are the stored ones. *)
Theorem common_only_values_stored `{SetIteration} (A B : gmap (list N) (list N))
    (key v1 v2 : list N) :
  (key, v1, v2) ∈ compare_params A B true →
  A !! key = Some v1 ∧ B !! key = Some v2.
Proof.
  rewrite elem_of_compare_params, elem_of_keys_to_compare.
  intros ([[a Ha] [b Hb]] & -> & -> & _).
  unfold dict_get. rewrite Ha, Hb. auto.
Qed.

Lemma record_values_differ_witness :
  Py.lit "3" ≠ Py.lit "N/A"
  ∧ ¬ (({[ Py.lit "PARAM_B" := Py.lit "3" ]} : gmap (list N) (list N))
         !! Py.lit "PARAM_B" = None
       ∧ (∅ : gmap (list N) (list N)) !! Py.lit "PARAM_B" = None)
  ∧ ¬ (Py.lit "3" = Py.lit "N/A" ∧ Py.lit "N/A" = Py.lit "N/A").
Proof.
  apply (record_values_differ (H := elements_iteration)
           {[ Py.lit "PARAM_B" := Py.lit "3" ]} ∅ false (Py.lit "PARAM_B")).
  vm_compute. left.
Defined.

Lemma common_only_values_stored_witness :
  ({[ Py.lit "PARAM_A" := Py.lit "5" ]} : gmap (list N) (list N))
    !! Py.lit "PARAM_A" = Some (Py.lit "5")
  ∧ ({[ Py.lit "PARAM_A" := Py.lit "N/A" ]} : gmap (list N) (list N))
      !! Py.lit "PARAM_A" = Some (Py.lit "N/A").
Proof.
  apply (common_only_values_stored (H := elements_iteration)).
  vm_compute. left.
Defined.

(** ** The entry point *)

Section Main.

Lemma parse_params_run file_path w :
  parse_params file_path w =
    match files w !! file_path with
    | Some text => (Returns (parse_lines (Py.readlines text)), w)
    | None => (Raises (OSError file_path), w)
    end.
Proof.
  unfold parse_params, mbind, IO_bind, bind, open_read.
  destruct (files w !! file_path); reflexivity.
Qed.

(** Parsing changes nothing in the world. *)
Lemma parse_params_returns file_path w params :
  (parse_params file_path w).1 = Returns params →
  parse_params file_path w = (Returns params, w).
Proof.
  rewrite parse_params_run.
  destruct (files w !! file_path); simpl; [intros [= <-]; reflexivity | discriminate].
Qed.

Lemma written_records_all (differences : list (list N * list N * list N)) :
  forallb row_encodable differences = true →
  written_records differences = differences.
Proof.
  induction differences as [|r differences IH]; [reflexivity|].
  cbn [forallb written_records]. intros [Hr Hd]%andb_true_iff.
  rewrite Hr, (IH Hd). reflexivity.
Qed.

(** The loop of [export_to_csv] writes the rows in order and stops at the
    first one that cannot be encoded. *)
Lemma for_each_write_rows output_file
    (differences : list (list N * list N * list N)) w text :
  files w !! output_file = Some text →
  for_each differences (λ '(key, value1, value2),
    write output_file (Csv.row [key; value1; value2])) w =
    (if forallb row_encodable differences
     then Returns tt else Raises UnicodeEncodeError,
     mkWorld (<[output_file :=
                  text ++ concat (map (λ '(key, value1, value2),
                                         Csv.row [key; value1; value2])
                                      (written_records differences))]> (files w))
             (unwritable w) (stdout w)).
Proof.
  revert w text.
  induction differences as [|[[key value1] value2] differences IH];
    intros w text Hf.
  - cbn [for_each map concat forallb written_records].
    rewrite app_nil_r, insert_id by exact Hf. destruct w; reflexivity.
  - cbn [for_each forallb written_records]. unfold mbind, IO_bind, bind.
    unfold write at 1. unfold row_encodable at 1 3.
    destruct (Py.utf8_encodable (Csv.row [key; value1; value2])).
    + rewrite (IH _ (text ++ Csv.row [key; value1; value2])).
      * cbn [files unwritable stdout map concat andb].
        rewrite Hf, insert_insert_eq, <- app_assoc. reflexivity.
      * cbn [files]. rewrite Hf. apply lookup_insert_eq.
    + cbn [map concat andb].
      rewrite app_nil_r, insert_id by exact Hf. destruct w; reflexivity.
Qed.

Lemma header_encodable :
  Py.utf8_encodable
    (Csv.row [Py.lit "PARAMETER"; Py.lit "FILE1_VALUE"; Py.lit "FILE2_VALUE"])
  = true.
Proof. vm_compute. reflexivity. Qed.

(** [export_to_csv] leaves the header and one row a record in the output
    file, up to the first row that cannot be encoded, when the file can be
    opened. *)
Lemma export_to_csv_run differences output_file w :
  export_to_csv differences output_file w =
    if decide (output_file ∈ unwritable w)
    then (Raises (OSError output_file), w)
    else (if forallb row_encodable differences
          then Returns tt else Raises UnicodeEncodeError,
          mkWorld (<[output_file := csv_text (written_records differences)]>
                     (files w))
                  (unwritable w) (stdout w)).
Proof.
  unfold export_to_csv, mbind, IO_bind, bind.
  unfold open_write at 1.
  destruct (decide (output_file ∈ unwritable w)); [reflexivity|].
  unfold write at 1. rewrite header_encodable. cbn [files unwritable stdout].
  rewrite lookup_insert_eq, insert_insert_eq.
  erewrite for_each_write_rows by (cbn [files]; apply lookup_insert_eq).
  cbn [files unwritable stdout]. rewrite insert_insert_eq. reflexivity.
Qed.

(** The two fixed messages are ASCII: every standard output prints them. *)
Lemma print_no_differences `{Stdout} w :
  print (Py.lit "No differences found.") w =
    (Returns tt,
     mkWorld (files w) (unwritable w)
             (stdout w ++ [Py.lit "No differences found."])).
Proof. reflexivity. Qed.

Lemma forallb_Permutation {A} (f : A → bool) (l1 l2 : list A) :
  l1 ≡ₚ l2 → forallb f l1 = forallb f l2.
Proof.
  induction 1 as [|x l1 l2 _ IH|x y l|l1 l2 l3 _ IH1 _ IH2]; cbn [forallb].
  - reflexivity.
  - rewrite IH. reflexivity.
  - destruct (f x), (f y); reflexivity.
  - congruence.
Qed.

End Main.

(** ** Claims on the entry point *)

(** C7: once both files are parsed, an empty report makes [main] print
    ["No differences found."] and nothing else: no file is created or
    changed. A report that is not empty makes [main] run [export_to_csv] on
    it and then print ["Differences exported to "] followed by the path.
    Where the output file can be opened and every row can be encoded, the
    file holds the rows of the report; the message is then printed when
    standard output can encode it, and where it cannot, [main] raises with
    the file written and nothing printed. *)
Theorem main_reports `{SetIteration} `{Stdout} (file1 file2 output_file : list N)
    (common_only : bool) (w : World) (params1 params2 : gmap (list N) (list N)) :
  (parse_params file1 w).1 = Returns params1 →
  (parse_params file2 w).1 = Returns params2 →
  (compare_params params1 params2 common_only = [] →
   main file1 file2 output_file common_only w =
     (Returns tt,
      mkWorld (files w) (unwritable w)
              (stdout w ++ [Py.lit "No differences found."])))
  ∧ (compare_params params1 params2 common_only ≠ [] →
     main file1 file2 output_file common_only w =
       (export_to_csv (compare_params params1 params2 common_only) output_file;;
        print (Py.lit "Differences exported to " ++ output_file)) w
     ∧ (output_file ∉ unwritable w →
        forallb row_encodable (compare_params params1 params2 common_only) = true →
        (printable (Py.lit "Differences exported to " ++ output_file) = true →
         main file1 file2 output_file common_only w =
           (Returns tt,
            mkWorld (<[output_file :=
                         csv_text (compare_params params1 params2 common_only)]>
                       (files w))
                    (unwritable w)
                    (stdout w ++ [Py.lit "Differences exported to " ++ output_file])))
        ∧ (printable (Py.lit "Differences exported to " ++ output_file) = false →
           main file1 file2 output_file common_only w =
             (Raises UnicodeEncodeError,
              mkWorld (<[output_file :=
                           csv_text (compare_params params1 params2 common_only)]>
                         (files w))
                      (unwritable w) (stdout w))))).
Proof.
  intros H1 H2.
  apply parse_params_returns in H1. apply parse_params_returns in H2.
  unfold main, mbind, IO_bind, bind. rewrite H1, H2. cbv zeta.
  split.
  - intros ->. apply print_no_differences.
  - intros Hne.
    destruct (compare_params params1 params2 common_only) as [|r report];
      [contradiction Hne; reflexivity|].
    split; [reflexivity|].
    intros Hw Henc. rewrite export_to_csv_run.
    destruct (decide (output_file ∈ unwritable w)); [contradiction|].
    rewrite Henc, (written_records_all _ Henc). unfold print.
    cbn [files unwritable stdout].
    split; intros ->; reflexivity.
Qed.

(** C8: a dictionary does not differ from itself, so two files that parse
    to the same dictionary make [main] print ["No differences found."] and
    leave every file as it was. *)
Theorem main_same_params `{SetIteration} `{Stdout} :
  (∀ (A : gmap (list N) (list N)) (common_only : bool),
     compare_params A A common_only = [])
  ∧ (∀ (file1 file2 output_file : list N) (common_only : bool) (w : World)
       (A : gmap (list N) (list N)),
       (parse_params file1 w).1 = Returns A →
       (parse_params file2 w).1 = Returns A →
       main file1 file2 output_file common_only w =
         (Returns tt,
          mkWorld (files w) (unwritable w)
                  (stdout w ++ [Py.lit "No differences found."]))).
Proof.
  assert (Hsame : ∀ (A : gmap (list N) (list N)) (common_only : bool),
             compare_params A A common_only = []).
  { intros A common_only.
    destruct (compare_params A A common_only) as [|[[key v1] v2] report] eqn:Hc;
      [reflexivity|].
    assert (Hin : (key, v1, v2) ∈ compare_params A A common_only)
      by (rewrite Hc; left).
    apply elem_of_compare_params in Hin as (_ & -> & -> & Hne).
    contradiction Hne. reflexivity. }
  split; [exact Hsame|].
  intros file1 file2 output_file common_only w A H1 H2.
  apply parse_params_returns in H1. apply parse_params_returns in H2.
  unfold main, mbind, IO_bind, bind. rewrite H1, H2. cbv zeta.
  rewrite Hsame. apply print_no_differences.
Qed.

Lemma main_reports_witness :
  main Scenario.file1 Scenario.file1 Scenario.output_file false Scenario.world =
    (Returns tt,
     mkWorld (files Scenario.world) (unwritable Scenario.world)
             (stdout Scenario.world ++ [Py.lit "No differences found."]))
  ∧ main Scenario.file1 Scenario.file2 Scenario.output_file false Scenario.world =
      (Returns tt,
       mkWorld (<[Scenario.output_file :=
                    csv_text (compare_params Scenario.params1 Scenario.params2 false)]>
                  (files Scenario.world))
               (unwritable Scenario.world)
               (stdout Scenario.world
                ++ [Py.lit "Differences exported to " ++ Scenario.output_file]))
  ∧ main Scenario.file1 Scenario.file2 [0x6F; 0xDCFF] false Scenario.world =
      (Raises UnicodeEncodeError,
       mkWorld (<[ [0x6F; 0xDCFF] :=
                    csv_text (compare_params Scenario.params1 Scenario.params2 false)]>
                  (files Scenario.world))
               (unwritable Scenario.world) (stdout Scenario.world)).
Proof.
  split; [|split].
  - apply (proj1 (main_reports (H := elements_iteration) (H0 := utf8_stdout)
                    Scenario.file1 Scenario.file1 Scenario.output_file false
                    Scenario.world Scenario.params1 Scenario.params1
                    ltac:(vm_compute; reflexivity) ltac:(vm_compute; reflexivity))).
    vm_compute. reflexivity.
  - apply (proj2 (main_reports (H := elements_iteration) (H0 := utf8_stdout)
                    Scenario.file1 Scenario.file2 Scenario.output_file false
                    Scenario.world Scenario.params1 Scenario.params2
                    ltac:(vm_compute; reflexivity) ltac:(vm_compute; reflexivity))).
    + vm_compute. discriminate.
    + apply not_elem_of_empty.
    + vm_compute. reflexivity.
    + vm_compute. reflexivity.
  - apply (proj2 (main_reports (H := elements_iteration) (H0 := utf8_stdout)
                    Scenario.file1 Scenario.file2 [0x6F; 0xDCFF] false
                    Scenario.world Scenario.params1 Scenario.params2
                    ltac:(vm_compute; reflexivity) ltac:(vm_compute; reflexivity))).
    + vm_compute. discriminate.
    + apply not_elem_of_empty.
    + vm_compute. reflexivity.
    + vm_compute. reflexivity.
Defined.

Lemma main_same_params_witness :
  main Scenario.file2 Scenario.file2 Scenario.output_file true Scenario.world =
    (Returns tt,
     mkWorld (files Scenario.world) (unwritable Scenario.world)
             (stdout Scenario.world ++ [Py.lit "No differences found."])).
Proof.
  apply (proj2 (main_same_params (H := elements_iteration) (H0 := utf8_stdout))
           Scenario.file2 Scenario.file2 Scenario.output_file true
           Scenario.world Scenario.params2).
  - vm_compute. reflexivity.
  - vm_compute. reflexivity.
Defined.

(** ** The two files, run *)

Example scenario_parse :
  Scenario.params1 = {[ Py.lit "PARAM_A" := Py.lit "5"; Py.lit "PARAM_B" := Py.lit "3" ]}
  ∧ Scenario.params2 = {[ Py.lit "PARAM_A" := Py.lit "7" ]}.
Proof. split; vm_compute; reflexivity. Qed.

Example scenario_compare_all :
  compare_params Scenario.params1 Scenario.params2 false
  ≡ₚ [(Py.lit "PARAM_A", Py.lit "5", Py.lit "7");
      (Py.lit "PARAM_B", Py.lit "3", Py.lit "N/A")].
Proof. vm_compute. apply perm_swap. Qed.

Example scenario_compare_common :
  compare_params Scenario.params1 Scenario.params2 true
  = [(Py.lit "PARAM_A", Py.lit "5", Py.lit "7")].
Proof. vm_compute. reflexivity. Qed.

Example scenario_output :
  (main Scenario.file1 Scenario.file2 Scenario.output_file true Scenario.world).2
  = mkWorld (<[Scenario.output_file := Py.lit "PARAMETER,FILE1_VALUE,FILE2_VALUE"
                 ++ [Py.CR; Py.LF] ++ Py.lit "PARAM_A,5,7" ++ [Py.CR; Py.LF]]>
               (files Scenario.world))
            ∅
            [Py.lit "Differences exported to diff.csv"].
Proof. vm_compute. reflexivity. Qed.

Example scenario_missing_file :
  main (Py.lit "c.params") Scenario.file2 Scenario.output_file false Scenario.world
  = (Raises (OSError (Py.lit "c.params")), Scenario.world).
Proof. vm_compute. reflexivity. Qed.

(** ** More on strings *)

Section Whitespace.

Lemma split_from_spaces tok ws :
  forallb Py.isspace ws = true →
  Py.split_from tok ws = match tok with [] => [] | _ :: _ => [rev tok] end.
Proof.
  revert tok. induction ws as [|c ws IH]; intros tok Hws; [reflexivity|].
  cbn [forallb] in Hws. apply andb_true_iff in Hws as [Hc Hws].
  cbn [Py.split_from]. rewrite Hc, (IH [] Hws).
  destruct tok; reflexivity.
Qed.

Lemma split_from_app_spaces tok s ws :
  forallb Py.isspace ws = true →
  Py.split_from tok (s ++ ws) = Py.split_from tok s.
Proof.
  intros Hws. revert tok. induction s as [|c s IH]; intros tok.
  - rewrite app_nil_l. apply split_from_spaces, Hws.
  - cbn [app Py.split_from]. rewrite !IH. reflexivity.
Qed.

Lemma split_spaces_app ws s :
  forallb Py.isspace ws = true → Py.split (ws ++ s) = Py.split s.
Proof.
  unfold Py.split. induction ws as [|c ws IH]; intros Hws; [reflexivity|].
  cbn [forallb] in Hws. apply andb_true_iff in Hws as [Hc Hws].
  cbn [app Py.split_from]. rewrite Hc. apply IH, Hws.
Qed.

Lemma isspace_hash c : Py.isspace c = true → (c =? hash) = false.
Proof.
  intros Hc. destruct (c =? hash) eqn:Hh; [|reflexivity].
  apply N.eqb_eq in Hh. subst c. vm_compute in Hc. discriminate Hc.
Qed.

Lemma startswith_hash_head line :
  Py.startswith line (Py.lit "#") =
    match line with [] => false | c :: _ => c =? hash end.
Proof.
  change (Py.lit "#") with [hash].
  destruct line as [|c line]; [reflexivity|].
  cbn [Py.startswith]. apply andb_true_r.
Qed.

(** The tokens of [split] are not empty and hold no whitespace. *)
Lemma split_from_tokens tok s :
  forallb (λ c, negb (Py.isspace c)) tok = true →
  Forall (λ t, is_token t = true) (Py.split_from tok s).
Proof.
  assert (Hrev : ∀ c tok,
    forallb (λ c, negb (Py.isspace c)) (c :: tok) = true →
    is_token (rev (c :: tok)) = true).
  { intros c t Ht. unfold is_token. apply andb_true_iff. split.
    - cbn [rev]. destruct (rev t); reflexivity.
    - rewrite forallb_forall in *. intros x Hx. apply Ht, in_rev, Hx. }
  revert tok. induction s as [|c s IH]; intros tok Htok; cbn [Py.split_from].
  - destruct tok as [|d tok]; [constructor|].
    constructor; [apply Hrev, Htok | constructor].
  - destruct (Py.isspace c) eqn:Hc.
    + destruct tok as [|d tok]; [apply IH; reflexivity|].
      constructor; [apply Hrev, Htok | apply IH; reflexivity].
    + apply IH. cbn [forallb]. rewrite Hc, Htok. reflexivity.
Qed.

Lemma data_line_tokens line name value :
  data_line line = Some (name, value) →
  is_token name = true ∧ is_token value = true.
Proof.
  intros Hd. apply data_line_split in Hd as [_ (t1 & t2 & t5 & Hs)].
  pose proof (split_from_tokens [] line eq_refl) as Ht.
  fold (Py.split line) in Ht. rewrite Hs in Ht.
  rewrite !Forall_cons in Ht. tauto.
Qed.

Lemma universal_newlines_no_CR text :
  Py.CR ∉ text → Py.universal_newlines text = text.
Proof.
  induction text as [|c text IH]; intros Hn; [reflexivity|].
  apply not_elem_of_cons in Hn as [Hc Hn].
  cbn [Py.universal_newlines].
  destruct (c =? Py.CR) eqn:Hcr; [apply N.eqb_eq in Hcr; congruence|].
  rewrite (IH Hn). reflexivity.
Qed.

Lemma universal_newlines_crlf text :
  Py.CR ∉ text → Py.universal_newlines (crlf text) = text.
Proof.
  induction text as [|c text IH]; intros Hn; [reflexivity|].
  apply not_elem_of_cons in Hn as [Hc Hn].
  unfold crlf. cbn [flat_map]. fold (crlf text).
  destruct (c =? Py.LF) eqn:Hlf.
  - apply N.eqb_eq in Hlf. subst c.
    cbn [app Py.universal_newlines].
    change (Py.CR =? Py.CR) with true. change (Py.LF =? Py.LF) with true.
    cbv iota. rewrite (IH Hn). reflexivity.
  - cbn [app Py.universal_newlines].
    destruct (c =? Py.CR) eqn:Hcr; [apply N.eqb_eq in Hcr; congruence|].
    rewrite (IH Hn). reflexivity.
Qed.

End Whitespace.

(** ** More on the parser *)

Section ParserLines.

Implicit Types (params : gmap (list N) (list N)) (line : list N).

Lemma data_line_spaces ws :
  forallb Py.isspace ws = true → data_line ws = None.
Proof.
  intros Hws. unfold data_line.
  replace (Py.split ws) with (@nil (list N)).
  - destruct (Py.startswith ws (Py.lit "#")); reflexivity.
  - symmetry. apply split_from_nil. auto.
Qed.

Lemma data_line_app_spaces line ws :
  forallb Py.isspace ws = true → data_line (line ++ ws) = data_line line.
Proof.
  intros Hws. destruct line as [|c line].
  - rewrite app_nil_l, (data_line_spaces ws Hws).
    symmetry. apply data_line_spaces. reflexivity.
  - unfold data_line. rewrite !startswith_hash_head.
    unfold Py.split. rewrite split_from_app_spaces by exact Hws. reflexivity.
Qed.

Lemma data_line_spaces_app ws line :
  forallb Py.isspace ws = true → head line ≠ Some hash →
  data_line (ws ++ line) = data_line line.
Proof.
  intros Hws Hh. unfold data_line.
  rewrite (split_spaces_app ws line Hws).
  replace (Py.startswith (ws ++ line) (Py.lit "#")) with false.
  - replace (Py.startswith line (Py.lit "#")) with false; [reflexivity|].
    symmetry. apply not_true_is_false. intros Hs. apply Hh.
    apply startswith_hash, Hs.
  - symmetry. rewrite startswith_hash_head.
    destruct ws as [|c ws]; cbn [app].
    + destruct line as [|d line]; [reflexivity|].
      apply not_true_is_false. intros Hd. apply Hh.
      apply N.eqb_eq in Hd. subst d. reflexivity.
    + cbn [forallb] in Hws. apply andb_true_iff in Hws as [Hc _].
      apply isspace_hash, Hc.
Qed.

(** The loop started on [params] adds the entries of the lines to it. *)
Lemma fold_parse_line_union lines params :
  fold_left parse_line lines params = parse_lines lines ∪ params.
Proof.
  unfold parse_lines. revert params.
  induction lines as [|line lines IH]; intros params; cbn [fold_left].
  - symmetry. apply (left_id_L ∅ (∪)).
  - rewrite (IH (parse_line params line)), (IH (parse_line ∅ line)).
    rewrite <- (assoc_L (∪)). f_equal.
    rewrite !parse_line_data_line.
    destruct (data_line line) as [[name value]|].
    + rewrite (insert_union_singleton_l params), insert_empty. reflexivity.
    + symmetry. apply (left_id_L ∅ (∪)).
Qed.

Lemma parse_lines_snoc lines line :
  parse_lines (lines ++ [line]) = parse_line (parse_lines lines) line.
Proof. unfold parse_lines. rewrite fold_left_app. reflexivity. Qed.

End ParserLines.

(** ** Further properties of the parser *)

(** X1: a line of whitespace only, the empty line included, leaves the
    dictionary as it was. *)
Theorem blank_line_skipped (params : gmap (list N) (list N)) (line : list N) :
  forallb Py.isspace line = true → parse_line params line = params.
Proof.
  intros Hws. rewrite parse_line_data_line, (data_line_spaces line Hws).
  reflexivity.
Qed.

Lemma blank_line_skipped_witness :
  parse_line {[ Py.lit "P" := Py.lit "1" ]} [32; 9; 13; 10]
  = {[ Py.lit "P" := Py.lit "1" ]}.
Proof.
  apply (blank_line_skipped {[ Py.lit "P" := Py.lit "1" ]} [32; 9; 13; 10]).
  reflexivity.
Defined.

(** X2: whitespace at the end of a line (its newline, a carriage return,
    spaces, tabs) does not change what the line does. *)
Theorem trailing_whitespace_ignored (params : gmap (list N) (list N))
    (line ws : list N) :
  forallb Py.isspace ws = true →
  parse_line params (line ++ ws) = parse_line params line.
Proof.
  intros Hws. rewrite !parse_line_data_line, (data_line_app_spaces line ws Hws).
  reflexivity.
Qed.

Lemma trailing_whitespace_ignored_witness :
  parse_line ∅ (Py.lit "1 1 P 5 6" ++ [32; 13; 10])
  = parse_line ∅ (Py.lit "1 1 P 5 6").
Proof.
  apply (trailing_whitespace_ignored ∅ (Py.lit "1 1 P 5 6") [32; 13; 10]).
  reflexivity.
Defined.

(** X3: whitespace before a line that does not start with [#] does not
    change what the line does. *)
Theorem leading_whitespace_ignored (params : gmap (list N) (list N))
    (ws line : list N) :
  forallb Py.isspace ws = true → head line ≠ Some hash →
  parse_line params (ws ++ line) = parse_line params line.
Proof.
  intros Hws Hh.
  rewrite !parse_line_data_line, (data_line_spaces_app ws line Hws Hh).
  reflexivity.
Qed.

Lemma leading_whitespace_ignored_witness :
  parse_line ∅ ([9; 32] ++ Py.lit "1 1 P 5 6")
  = parse_line ∅ (Py.lit "1 1 P 5 6").
Proof.
  apply (leading_whitespace_ignored ∅ [9; 32] (Py.lit "1 1 P 5 6")).
  - reflexivity.
  - vm_compute. discriminate.
Defined.

(** X4: every name and every value of the parsed dictionary is a token: not
    empty and free of whitespace. *)
Theorem parsed_entries_are_tokens (lines : list (list N)) (name value : list N) :
  parse_lines lines !! name = Some value →
  is_token name = true ∧ is_token value = true.
Proof.
  revert name value. induction lines as [|line lines IH] using rev_ind;
    intros name value.
  - unfold parse_lines. cbn [fold_left]. rewrite lookup_empty. discriminate.
  - rewrite parse_lines_snoc, parse_line_data_line.
    destruct (data_line line) as [[n v]|] eqn:Hd; [|apply IH].
    rewrite lookup_insert. case_decide as Hn.
    + intros [= <-]. subst n. apply (data_line_tokens line), Hd.
    + apply IH.
Qed.

Lemma parsed_entries_are_tokens_witness :
  is_token (Py.lit "PARAM_A") = true ∧ is_token (Py.lit "5") = true.
Proof.
  apply (parsed_entries_are_tokens [Py.lit "1 1 PARAM_A 5 6"]).
  vm_compute. reflexivity.
Defined.

(** X5: the parsed dictionary holds a name exactly when a data line of the
    file names it, and the value it holds is the value of such a line. *)
Theorem parse_lines_lookup (lines : list (list N)) (name : list N) :
  (∀ value, parse_lines lines !! name = Some value →
     ∃ line, line ∈ lines ∧ data_line line = Some (name, value))
  ∧ (parse_lines lines !! name = None ↔
     ∀ line value, line ∈ lines → data_line line ≠ Some (name, value)).
Proof.
  induction lines as [|line lines [IHs IHn]] using rev_ind.
  - unfold parse_lines. cbn [fold_left]. rewrite lookup_empty.
    split; [discriminate|]. split; [|reflexivity].
    intros _ l v Hin. apply not_elem_of_nil in Hin. contradiction.
  - rewrite parse_lines_snoc, parse_line_data_line.
    assert (Hmem : ∀ l, l ∈ lines ++ [line] ↔ l ∈ lines ∨ l = line).
    { intros l. rewrite elem_of_app, list_elem_of_singleton. reflexivity. }
    destruct (data_line line) as [[n v]|] eqn:Hd.
    + rewrite lookup_insert. case_decide as Hn.
      * subst n. split.
        -- intros value [= <-]. exists line. rewrite Hmem. auto.
        -- split; [discriminate|].
           intros Hall. exfalso. apply (Hall line v); [apply Hmem; auto | exact Hd].
      * split.
        -- intros value Hv. destruct (IHs value Hv) as (l & Hl & Hdl).
           exists l. rewrite Hmem. auto.
        -- rewrite IHn. split.
           ++ intros Hall l value [Hl| ->]%Hmem; [apply Hall, Hl|].
              rewrite Hd. intros [= -> _]. contradiction Hn. reflexivity.
           ++ intros Hall l value Hl. apply Hall, Hmem. auto.
    + split.
      * intros value Hv. destruct (IHs value Hv) as (l & Hl & Hdl).
        exists l. rewrite Hmem. auto.
      * rewrite IHn. split.
        -- intros Hall l value [Hl| ->]%Hmem; [apply Hall, Hl|].
           rewrite Hd. discriminate.
        -- intros Hall l value Hl. apply Hall, Hmem. auto.
Qed.

Lemma parse_lines_lookup_witness :
  (∃ line, line ∈ [Py.lit "# P 1 2 3"; Py.lit "1 1 P 5 6"]
           ∧ data_line line = Some (Py.lit "P", Py.lit "5"))
  ∧ parse_lines [Py.lit "# P 1 2 3"; Py.lit "1 1 P 5 6"] !! Py.lit "1" = None.
Proof.
  split.
  - apply (proj1 (parse_lines_lookup [Py.lit "# P 1 2 3"; Py.lit "1 1 P 5 6"]
                    (Py.lit "P"))).
    vm_compute. reflexivity.
  - apply (proj2 (parse_lines_lookup [Py.lit "# P 1 2 3"; Py.lit "1 1 P 5 6"]
                    (Py.lit "1"))).
    intros line value Hin.
    apply elem_of_cons in Hin as [->|Hin];
      [|apply list_elem_of_singleton in Hin; subst line];
      vm_compute; discriminate.
Defined.

(** X6: parsing the lines of two files one after the other gives the
    dictionary of the second, completed by the entries of the first that
    the second does not name. *)
Theorem parse_lines_app_union (lines1 lines2 : list (list N)) :
  parse_lines (lines1 ++ lines2) = parse_lines lines2 ∪ parse_lines lines1.
Proof. rewrite parse_lines_app. apply fold_parse_line_union. Qed.

(** X7: a file without carriage returns parses to the same dictionary when
    its line ends are written [\r\n]. *)
Theorem crlf_same_params (w w' : World) (file_path file_path' text : list N) :
  Py.CR ∉ text →
  files w !! file_path = Some text →
  files w' !! file_path' = Some (crlf text) →
  (parse_params file_path' w').1 = (parse_params file_path w).1.
Proof.
  intros Hcr Hf Hf'. rewrite !parse_params_run, Hf, Hf'. cbn [fst].
  unfold Py.readlines.
  rewrite (universal_newlines_crlf text Hcr), (universal_newlines_no_CR text Hcr).
  reflexivity.
Qed.

Lemma crlf_same_params_witness :
  (parse_params Scenario.file1
     (mkWorld {[ Scenario.file1 := crlf Scenario.text1 ]} ∅ [])).1
  = (parse_params Scenario.file1 Scenario.world).1.
Proof.
  apply (crlf_same_params Scenario.world _ Scenario.file1 Scenario.file1
           Scenario.text1).
  - apply (bool_decide_unpack _). vm_compute. exact I.
  - vm_compute. reflexivity.
  - vm_compute. reflexivity.
Defined.

(** ** More on the comparator *)

Section Reports.

Implicit Types (A B : gmap (list N) (list N)) (key : list N).

Lemma keys_to_compare_swap A B common_only :
  keys_to_compare B A common_only = keys_to_compare A B common_only.
Proof.
  apply set_eq. intros key. rewrite !elem_of_keys_to_compare.
  destruct common_only; tauto.
Qed.

Lemma difference_swap A B key :
  difference B A key = swap_record <$> difference A B key.
Proof.
  unfold difference. do 2 case_bool_decide; try reflexivity; congruence.
Qed.

Lemma omap_difference_swap A B (keys : list (list N)) :
  omap (difference B A) keys = swap_record <$> omap (difference A B) keys.
Proof.
  rewrite list_fmap_omap. induction keys as [|key keys IH]; [reflexivity|].
  cbn [omap list_omap]. rewrite difference_swap, IH. reflexivity.
Qed.

(** The report is empty exactly when the two dictionaries give every
    candidate key the same value. *)
Lemma compare_params_nil `{SetIteration} A B common_only :
  compare_params A B common_only = [] ↔
  ∀ key, key ∈ keys_to_compare A B common_only →
         dict_get A key NA = dict_get B key NA.
Proof.
  split.
  - intros Hnil key Hk.
    destruct (decide (dict_get A key NA = dict_get B key NA)) as [|Hne];
      [assumption|].
    assert (Hin : (key, dict_get A key NA, dict_get B key NA)
                  ∈ compare_params A B common_only)
      by (apply elem_of_compare_params; auto).
    rewrite Hnil in Hin. apply not_elem_of_nil in Hin. contradiction.
  - intros Hall. apply elem_of_nil_inv. intros [[key v1] v2] Hin.
    apply elem_of_compare_params in Hin as (Hk & -> & -> & Hne).
    apply Hne, Hall, Hk.
Qed.

End Reports.

(** ** Further properties of the comparator *)

(** X8: the order in which the keys are visited changes the order of the
    records and nothing else: two runs give the same records, each as many
    times. *)
Theorem compare_params_any_order (order1 order2 : SetIteration)
    (A B : gmap (list N) (list N)) (common_only : bool) :
  @compare_params order1 A B common_only
  ≡ₚ @compare_params order2 A B common_only.
Proof.
  rewrite !compare_params_omap. apply omap_Permutation.
  rewrite (@set_iter_perm order1), (@set_iter_perm order2). reflexivity.
Qed.

(** X9: comparing the dictionaries the other way round gives the same
    records with their two values exchanged, up to their order. *)
Theorem compare_params_swapped_report (order1 order2 : SetIteration)
    (A B : gmap (list N) (list N)) (common_only : bool) :
  @compare_params order2 B A common_only
  ≡ₚ swap_record <$> @compare_params order1 A B common_only.
Proof.
  rewrite !compare_params_omap, <- omap_difference_swap, keys_to_compare_swap.
  apply omap_Permutation.
  rewrite (@set_iter_perm order1), (@set_iter_perm order2). reflexivity.
Qed.

(** X10: when neither dictionary stores the string ["N/A"] as a value, the
    report of all parameters is empty exactly when the two dictionaries are
    equal. *)
Theorem full_report_empty_iff_equal `{SetIteration}
    (A B : gmap (list N) (list N)) :
  (∀ key, A !! key ≠ Some (Py.lit "N/A")) →
  (∀ key, B !! key ≠ Some (Py.lit "N/A")) →
  compare_params A B false = [] ↔ A = B.
Proof.
  intros HA HB. rewrite compare_params_nil. split.
  - intros Hall. apply map_eq. intros key.
    specialize (Hall key). rewrite elem_of_keys_to_compare in Hall.
    specialize (HA key). specialize (HB key). unfold dict_get in Hall.
    destruct (A !! key) as [a|] eqn:Ea, (B !! key) as [b|] eqn:Eb;
      cbn [default] in Hall.
    + f_equal. apply Hall. left. eauto.
    + exfalso. apply HA. f_equal. apply Hall. left. eauto.
    + exfalso. apply HB. f_equal. symmetry. apply Hall. right. eauto.
    + reflexivity.
  - intros -> key _. reflexivity.
Qed.

Lemma full_report_empty_iff_equal_witness :
  compare_params ({[ Py.lit "P" := Py.lit "5" ]} : gmap (list N) (list N))
                 {[ Py.lit "P" := Py.lit "7" ]} false = []
  ↔ ({[ Py.lit "P" := Py.lit "5" ]} : gmap (list N) (list N))
    = {[ Py.lit "P" := Py.lit "7" ]}.
Proof.
  apply (full_report_empty_iff_equal (H := elements_iteration)).
  - intros key Hk. apply lookup_singleton_Some in Hk as [_ Hk].
    vm_compute in Hk. discriminate Hk.
  - intros key Hk. apply lookup_singleton_Some in Hk as [_ Hk].
    vm_compute in Hk. discriminate Hk.
Defined.

(** X11: a parameter that one dictionary stores with the value ["N/A"] and
    that the other does not have is not reported, whichever way round the
    two are compared and in both modes. *)
Theorem stored_NA_against_missing `{SetIteration}
    (A B : gmap (list N) (list N)) (key : list N) :
  A !! key = Some (Py.lit "N/A") → B !! key = None →
  ∀ (common_only : bool) (v1 v2 : list N),
    ((key, v1, v2) ∉ compare_params A B common_only)
    ∧ ((key, v1, v2) ∉ compare_params B A common_only).
Proof.
  intros HA HB common_only v1 v2.
  split; rewrite elem_of_compare_params; unfold dict_get; rewrite HA, HB;
    cbn [default]; intros (_ & -> & -> & Hne); apply Hne; reflexivity.
Qed.

Lemma stored_NA_against_missing_witness :
  ((Py.lit "P", Py.lit "N/A", Py.lit "N/A")
     ∉ compare_params ({[ Py.lit "P" := Py.lit "N/A" ]} : gmap (list N) (list N))
                      ∅ false)
  ∧ ((Py.lit "P", Py.lit "N/A", Py.lit "N/A")
       ∉ compare_params ∅
           ({[ Py.lit "P" := Py.lit "N/A" ]} : gmap (list N) (list N)) false).
Proof.
  apply (stored_NA_against_missing (H := elements_iteration)
           {[ Py.lit "P" := Py.lit "N/A" ]} ∅ (Py.lit "P")).
  - apply lookup_singleton_eq.
  - apply lookup_empty.
Defined.

(** X12: the report of the common parameters is empty exactly when the two
    dictionaries give every parameter they share the same value. *)
Theorem common_report_empty_iff `{SetIteration} (A B : gmap (list N) (list N)) :
  compare_params A B true = [] ↔
  ∀ key v1 v2, A !! key = Some v1 → B !! key = Some v2 → v1 = v2.
Proof.
  rewrite compare_params_nil. split.
  - intros Hall key v1 v2 HA HB. specialize (Hall key).
    rewrite elem_of_keys_to_compare in Hall. unfold dict_get in Hall.
    rewrite HA, HB in Hall. apply Hall. split; eauto.
  - intros Hall key Hk. apply elem_of_keys_to_compare in Hk as [[a Ha] [b Hb]].
    unfold dict_get. rewrite Ha, Hb. cbn [default]. apply (Hall key); assumption.
Qed.

(** X13: every record of the report of the common parameters is a record
    of the report of all parameters, and a record that only the second has
    is of a parameter that one dictionary lacks, with ["N/A"] on that
    side. *)
Theorem common_records_in_full `{SetIteration} (A B : gmap (list N) (list N))
    (key v1 v2 : list N) :
  ((key, v1, v2) ∈ compare_params A B true →
   (key, v1, v2) ∈ compare_params A B false)
  ∧ ((key, v1, v2) ∈ compare_params A B false →
     (key, v1, v2) ∉ compare_params A B true →
     (A !! key = None ∧ v1 = Py.lit "N/A" ∧ B !! key = Some v2)
     ∨ (B !! key = None ∧ v2 = Py.lit "N/A" ∧ A !! key = Some v1)).
Proof.
  rewrite !elem_of_compare_params, !elem_of_keys_to_compare. split.
  - intros ([HA HB] & Hv). auto.
  - intros (Hk & -> & -> & Hne) Hnot. unfold dict_get in *.
    destruct (A !! key) as [a|] eqn:Ea, (B !! key) as [b|] eqn:Eb;
      cbn [default] in *.
    + exfalso. apply Hnot. split; [split; eauto | auto].
    + right. auto.
    + left. auto.
    + destruct Hk as [[? [=]]|[? [=]]].
Qed.

Lemma common_records_in_full_witness :
  (Py.lit "PARAM_A", Py.lit "5", Py.lit "7")
    ∈ compare_params Scenario.params1 Scenario.params2 false
  ∧ ((Scenario.params1 !! Py.lit "PARAM_B" = None ∧ Py.lit "3" = Py.lit "N/A"
      ∧ Scenario.params2 !! Py.lit "PARAM_B" = Some (Py.lit "N/A"))
     ∨ (Scenario.params2 !! Py.lit "PARAM_B" = None
        ∧ Py.lit "N/A" = Py.lit "N/A"
        ∧ Scenario.params1 !! Py.lit "PARAM_B" = Some (Py.lit "3"))).
Proof.
  split.
  - apply (proj1 (common_records_in_full (H := elements_iteration)
                    Scenario.params1 Scenario.params2
                    (Py.lit "PARAM_A") (Py.lit "5") (Py.lit "7"))).
    vm_compute. left.
  - apply (proj2 (common_records_in_full (H := elements_iteration)
                    Scenario.params1 Scenario.params2
                    (Py.lit "PARAM_B") (Py.lit "3") (Py.lit "N/A"))).
    + vm_compute. left.
    + apply (bool_decide_unpack _). vm_compute. exact I.
Defined.

(** X14: against the empty dictionary the report of the common parameters
    is empty, and the report of all parameters holds, for every parameter
    whose stored value is not ["N/A"], that value against ["N/A"]. *)
Theorem compare_params_empty `{SetIteration} (A : gmap (list N) (list N)) :
  compare_params A ∅ true = []
  ∧ compare_params ∅ A true = []
  ∧ ∀ key v1 v2,
      (key, v1, v2) ∈ compare_params A ∅ false ↔
      A !! key = Some v1 ∧ v2 = Py.lit "N/A" ∧ v1 ≠ Py.lit "N/A".
Proof.
  split; [|split].
  - apply compare_params_nil. intros key Hk.
    apply elem_of_keys_to_compare in Hk as [_ [? Hk]].
    rewrite lookup_empty in Hk. discriminate Hk.
  - apply compare_params_nil. intros key Hk.
    apply elem_of_keys_to_compare in Hk as [[? Hk] _].
    rewrite lookup_empty in Hk. discriminate Hk.
  - intros key v1 v2.
    rewrite elem_of_compare_params, elem_of_keys_to_compare.
    unfold dict_get. rewrite lookup_empty. cbn [default]. split.
    + intros ([[a Ha]|[? [=]]] & -> & -> & Hne).
      rewrite Ha in *. cbn [default] in *. auto.
    + intros (Ha & -> & Hne). rewrite Ha. cbn [default].
      split; [left; eauto | auto].
Qed.

(** ** Further properties of the exporter and of the entry point *)

(** X15: where the output file can be opened, [export_to_csv] leaves in it
    the header row followed by the rows of the records, in the order of the
    report, up to the first record whose row UTF-8 cannot encode, whatever
    the file held before; it returns when every row was written and raises
    otherwise; no other file changes and nothing is printed. Where the file
    cannot be opened, [export_to_csv] raises and changes nothing. *)
Theorem export_to_csv_effect (differences : list (list N * list N * list N))
    (output_file : list N) (w : World) :
  (output_file ∉ unwritable w →
   (export_to_csv differences output_file w).1
   = (if forallb row_encodable differences
      then Returns tt else Raises UnicodeEncodeError)
   ∧ files (export_to_csv differences output_file w).2 !! output_file
     = Some (Csv.row [Py.lit "PARAMETER"; Py.lit "FILE1_VALUE"; Py.lit "FILE2_VALUE"]
             ++ concat (map (λ '(key, value1, value2),
                               Csv.row [key; value1; value2])
                            (written_records differences)))
   ∧ (forallb row_encodable differences = true →
      written_records differences = differences)
   ∧ (∀ path, path ≠ output_file →
        files (export_to_csv differences output_file w).2 !! path
        = files w !! path)
   ∧ unwritable (export_to_csv differences output_file w).2 = unwritable w
   ∧ stdout (export_to_csv differences output_file w).2 = stdout w)
  ∧ (output_file ∈ unwritable w →
     export_to_csv differences output_file w = (Raises (OSError output_file), w)).
Proof.
  rewrite export_to_csv_run.
  destruct (decide (output_file ∈ unwritable w)) as [Hin|Hnot].
  - split; [intros Hn; contradiction | reflexivity].
  - split; [|intros Hin; contradiction].
    intros _. cbn [fst snd files unwritable stdout].
    split; [reflexivity|]. split; [apply lookup_insert_eq|].
    split; [apply written_records_all|].
    split; [|split; reflexivity].
    intros path Hp. apply lookup_insert_ne. congruence.
Qed.

Lemma export_to_csv_effect_witness :
  ((export_to_csv [(Py.lit "P", Py.lit "5", Py.lit "7");
                   (Py.lit "Q", [0xD800], Py.lit "1");
                   (Py.lit "R", Py.lit "2", Py.lit "3")]
      Scenario.output_file Scenario.world).1
   = Raises UnicodeEncodeError
   ∧ files (export_to_csv [(Py.lit "P", Py.lit "5", Py.lit "7");
                           (Py.lit "Q", [0xD800], Py.lit "1");
                           (Py.lit "R", Py.lit "2", Py.lit "3")]
              Scenario.output_file Scenario.world).2 !! Scenario.output_file
     = Some (Py.lit "PARAMETER,FILE1_VALUE,FILE2_VALUE" ++ [Py.CR; Py.LF]
             ++ Py.lit "P,5,7" ++ [Py.CR; Py.LF]))
  ∧ export_to_csv [(Py.lit "P", Py.lit "5", Py.lit "7")] Scenario.output_file
      (mkWorld ∅ {[ Scenario.output_file ]} [])
    = (Raises (OSError Scenario.output_file),
       mkWorld ∅ {[ Scenario.output_file ]} []).
Proof.
  split.
  - pose proof (proj1 (export_to_csv_effect
                         [(Py.lit "P", Py.lit "5", Py.lit "7");
                          (Py.lit "Q", [0xD800], Py.lit "1");
                          (Py.lit "R", Py.lit "2", Py.lit "3")]
                         Scenario.output_file Scenario.world)
                  (not_elem_of_empty _)) as (Hout & Hfile & _).
    split; [exact Hout | exact Hfile].
  - apply (proj2 (export_to_csv_effect [(Py.lit "P", Py.lit "5", Py.lit "7")]
                    Scenario.output_file
                    (mkWorld ∅ {[ Scenario.output_file ]} []))).
    apply (bool_decide_unpack _). vm_compute. exact I.
Defined.

(** X16: exporting to a file that an earlier export wrote leaves what the
    later export alone would have left. *)
Theorem export_to_csv_twice
    (differences1 differences2 : list (list N * list N * list N))
    (output_file : list N) (w : World) :
  export_to_csv differences2 output_file
    (export_to_csv differences1 output_file w).2
  = export_to_csv differences2 output_file w.
Proof.
  rewrite !export_to_csv_run.
  destruct (decide (output_file ∈ unwritable w)) as [Hin|Hnot];
    cbn [snd unwritable files stdout].
  - destruct (decide (output_file ∈ unwritable w)); [reflexivity | contradiction].
  - destruct (decide (output_file ∈ unwritable w)); [contradiction|].
    rewrite insert_insert_eq. reflexivity.
Qed.

(** X17: [main] raises, with nothing printed and no file changed, when the
    first file cannot be read; when the first can and the second cannot;
    and when both are parsed, they differ, and the output file cannot be
    opened. *)
Theorem main_raises `{SetIteration} `{Stdout} (file1 file2 output_file : list N)
    (common_only : bool) (w : World) :
  (files w !! file1 = None →
   main file1 file2 output_file common_only w = (Raises (OSError file1), w))
  ∧ (is_Some (files w !! file1) → files w !! file2 = None →
     main file1 file2 output_file common_only w = (Raises (OSError file2), w))
  ∧ (∀ params1 params2,
       (parse_params file1 w).1 = Returns params1 →
       (parse_params file2 w).1 = Returns params2 →
       compare_params params1 params2 common_only ≠ [] →
       output_file ∈ unwritable w →
       main file1 file2 output_file common_only w
       = (Raises (OSError output_file), w)).
Proof.
  split; [|split].
  - intros H1. unfold main, mbind, IO_bind, bind.
    rewrite parse_params_run, H1. reflexivity.
  - intros [text1 H1] H2. unfold main, mbind, IO_bind, bind.
    rewrite parse_params_run, H1. cbv beta iota.
    rewrite parse_params_run, H2. reflexivity.
  - intros params1 params2 H1 H2 Hne Hin.
    apply parse_params_returns in H1. apply parse_params_returns in H2.
    unfold main, mbind, IO_bind, bind. rewrite H1, H2. cbv zeta.
    destruct (compare_params params1 params2 common_only) as [|r report];
      [contradiction Hne; reflexivity|].
    rewrite export_to_csv_run.
    destruct (decide (output_file ∈ unwritable w)); [reflexivity | contradiction].
Qed.

Lemma main_raises_witness :
  main (Py.lit "c.params") Scenario.file2 Scenario.output_file false Scenario.world
  = (Raises (OSError (Py.lit "c.params")), Scenario.world)
  ∧ main Scenario.file1 (Py.lit "c.params") Scenario.output_file false Scenario.world
    = (Raises (OSError (Py.lit "c.params")), Scenario.world)
  ∧ main Scenario.file1 Scenario.file2 Scenario.output_file false
      (mkWorld (files Scenario.world) {[ Scenario.output_file ]} [])
    = (Raises (OSError Scenario.output_file),
       mkWorld (files Scenario.world) {[ Scenario.output_file ]} []).
Proof.
  split; [|split].
  - apply (proj1 (main_raises (H := elements_iteration) (H0 := utf8_stdout)
                    (Py.lit "c.params")
                    Scenario.file2 Scenario.output_file false Scenario.world)).
    vm_compute. reflexivity.
  - apply (proj1 (proj2 (main_raises (H := elements_iteration)
                    (H0 := utf8_stdout) Scenario.file1
                    (Py.lit "c.params") Scenario.output_file false
                    Scenario.world))).
    + exists Scenario.text1. vm_compute. reflexivity.
    + vm_compute. reflexivity.
  - apply (proj2 (proj2 (main_raises (H := elements_iteration)
                    (H0 := utf8_stdout) Scenario.file1
                    Scenario.file2 Scenario.output_file false
                    (mkWorld (files Scenario.world) {[ Scenario.output_file ]} [])))
             Scenario.params1 Scenario.params2).
    + vm_compute. reflexivity.
    + vm_compute. reflexivity.
    + vm_compute. discriminate.
    + apply (bool_decide_unpack _). vm_compute. exact I.
Defined.

(** X18: whatever its arguments, [main] changes no file other than the
    output file and makes no path unwritable. When it returns it has
    printed one line. When it raises it has printed nothing; when what it
    raises is the error of an [open], it has changed nothing at all. *)
Theorem main_frame `{SetIteration} `{Stdout} (file1 file2 output_file : list N)
    (common_only : bool) (w : World) :
  unwritable (main file1 file2 output_file common_only w).2 = unwritable w
  ∧ (∀ path, path ≠ output_file →
       files (main file1 file2 output_file common_only w).2 !! path
       = files w !! path)
  ∧ match (main file1 file2 output_file common_only w).1 with
    | Returns _ =>
        ∃ msg, stdout (main file1 file2 output_file common_only w).2
               = stdout w ++ [msg]
    | Raises (OSError _) =>
        (main file1 file2 output_file common_only w).2 = w
    | Raises UnicodeEncodeError =>
        stdout (main file1 file2 output_file common_only w).2 = stdout w
    end.
Proof.
  unfold main, mbind, IO_bind, bind. rewrite parse_params_run.
  destruct (files w !! file1) as [text1|];
    [|cbn [fst snd]; auto].
  cbv beta iota. rewrite parse_params_run.
  destruct (files w !! file2) as [text2|];
    [|cbn [fst snd]; auto].
  cbv beta iota zeta.
  destruct (compare_params _ _ common_only) as [|r report].
  - rewrite print_no_differences. cbn [fst snd files unwritable stdout]. eauto.
  - rewrite export_to_csv_run.
    destruct (decide (output_file ∈ unwritable w));
      [cbn [fst snd]; auto|].
    destruct (forallb row_encodable (r :: report)).
    + unfold print.
      destruct (printable (Py.lit "Differences exported to " ++ output_file));
        cbn [fst snd files unwritable stdout].
      * split; [reflexivity|]. split; [|eauto].
        intros path Hp. apply lookup_insert_ne. congruence.
      * split; [reflexivity|]. split; [|reflexivity].
        intros path Hp. apply lookup_insert_ne. congruence.
    + cbn [fst snd files unwritable stdout].
      split; [reflexivity|]. split; [|reflexivity].
      intros path Hp. apply lookup_insert_ne. congruence.
Qed.

(** X19: the order in which the keys are visited changes neither whether
    [main] returns or raises nor what it prints. *)
Theorem main_message_any_order (order1 order2 : SetIteration) `{Stdout}
    (file1 file2 output_file : list N) (common_only : bool) (w : World) :
  (main (H := order1) file1 file2 output_file common_only w).1
  = (main (H := order2) file1 file2 output_file common_only w).1
  ∧ stdout (main (H := order1) file1 file2 output_file common_only w).2
    = stdout (main (H := order2) file1 file2 output_file common_only w).2.
Proof.
  unfold main, mbind, IO_bind, bind. rewrite parse_params_run.
  destruct (files w !! file1) as [text1|]; [|auto].
  cbv beta iota. rewrite parse_params_run.
  destruct (files w !! file2) as [text2|]; [|auto].
  cbv beta iota zeta.
  pose proof (compare_params_omap (H := order1)
                (parse_lines (Py.readlines text1))
                (parse_lines (Py.readlines text2)) common_only) as E1.
  pose proof (compare_params_omap (H := order2)
                (parse_lines (Py.readlines text1))
                (parse_lines (Py.readlines text2)) common_only) as E2.
  assert (Hp : @compare_params order1 (parse_lines (Py.readlines text1))
                 (parse_lines (Py.readlines text2)) common_only
               ≡ₚ @compare_params order2 (parse_lines (Py.readlines text1))
                    (parse_lines (Py.readlines text2)) common_only).
  { rewrite E1, E2. apply omap_Permutation.
    rewrite (@set_iter_perm order1), (@set_iter_perm order2). reflexivity. }
  pose proof (forallb_Permutation row_encodable _ _ Hp) as Henc.
  destruct (@compare_params order1 _ _ common_only) as [|r1 report1],
           (@compare_params order2 _ _ common_only) as [|r2 report2].
  - auto.
  - apply Permutation_nil_l in Hp. discriminate Hp.
  - apply Permutation_nil_r in Hp. discriminate Hp.
  - rewrite !export_to_csv_run.
    destruct (decide (output_file ∈ unwritable w)); [auto|].
    rewrite Henc.
    destruct (forallb row_encodable (r2 :: report2)); [|auto].
    unfold print.
    destruct (printable (Py.lit "Differences exported to " ++ output_file)); auto.
Qed.

(** ** Text that can be encoded *)

Section Encoding.

Variable f : N → bool.

Lemma forallb_rev (l : list N) : forallb f (rev l) = forallb f l.
Proof.
  apply eq_true_iff_eq. rewrite !forallb_forall.
  split; intros Hall x Hx; apply Hall; [apply in_rev in Hx | apply in_rev]; exact Hx.
Qed.

Lemma split_from_forallb tok s :
  forallb f tok = true → forallb f s = true →
  forallb (forallb f) (Py.split_from tok s) = true.
Proof.
  revert tok. induction s as [|c s IH]; intros tok Htok Hs; cbn [Py.split_from].
  - destruct tok as [|d tok]; [reflexivity|].
    cbn [forallb]. rewrite forallb_rev, Htok. reflexivity.
  - cbn [forallb] in Hs. apply andb_true_iff in Hs as [Hc Hs].
    destruct (Py.isspace c).
    + destruct tok as [|d tok]; [apply IH; [reflexivity | exact Hs]|].
      cbn [forallb]. rewrite forallb_rev, Htok, (IH [] eq_refl Hs). reflexivity.
    + apply IH; [|exact Hs]. cbn [forallb]. rewrite Hc, Htok. reflexivity.
Qed.

Lemma universal_newlines_forallb s :
  f Py.LF = true → forallb f s = true →
  forallb f (Py.universal_newlines s) = true.
Proof.
  intros Hlf. induction s as [s IH] using (induction_ltof1 _ (@length N)).
  unfold ltof in IH. destruct s as [|c s]; [reflexivity|].
  cbn [forallb Py.universal_newlines]. intros [Hc Hs]%andb_true_iff.
  destruct (c =? Py.CR).
  - cbn [forallb]. rewrite Hlf. cbn [andb].
    destruct s as [|d s]; [reflexivity|].
    cbn [forallb] in Hs. apply andb_true_iff in Hs as [Hd Hs'].
    destruct (d =? Py.LF).
    + apply IH; [cbn [length]; lia | exact Hs'].
    + apply IH; [cbn [length]; lia|]. cbn [forallb]. rewrite Hd, Hs'. reflexivity.
  - cbn [forallb]. rewrite Hc. cbn [andb]. apply IH; [cbn [length]; lia | exact Hs].
Qed.

Lemma lines_from_forallb cur s :
  forallb f cur = true → forallb f s = true →
  forallb (forallb f) (Py.lines_from cur s) = true.
Proof.
  revert cur. induction s as [|c s IH]; intros cur Hcur Hs; cbn [Py.lines_from].
  - destruct cur as [|d cur]; [reflexivity|].
    cbn [forallb]. rewrite forallb_rev, Hcur. reflexivity.
  - cbn [forallb] in Hs. apply andb_true_iff in Hs as [Hc Hs].
    assert (Hcc : forallb f (c :: cur) = true)
      by (cbn [forallb]; rewrite Hc, Hcur; reflexivity).
    destruct (c =? Py.LF).
    + cbn [forallb]. rewrite forallb_rev, Hcc, (IH [] eq_refl Hs). reflexivity.
    + apply IH; assumption.
Qed.

(** The names and values of the parsed dictionary are made of characters
    of the lines. *)
Lemma parse_lines_forallb (lines : list (list N)) :
  forallb (forallb f) lines = true →
  map_Forall (λ name value, forallb f name = true ∧ forallb f value = true)
             (parse_lines lines).
Proof.
  induction lines as [|line lines IH] using rev_ind; intros Hall.
  - unfold parse_lines. cbn [fold_left]. apply map_Forall_empty.
  - rewrite forallb_app in Hall. apply andb_true_iff in Hall as [Hl Hline].
    cbn [forallb] in Hline. rewrite andb_true_r in Hline.
    rewrite parse_lines_snoc, parse_line_data_line.
    destruct (data_line line) as [[name value]|] eqn:Hd; [|apply IH, Hl].
    apply map_Forall_insert_2; [|apply IH, Hl].
    apply data_line_split in Hd as [_ (t1 & t2 & t5 & Hs)].
    pose proof (split_from_forallb [] line eq_refl Hline) as Ht.
    fold (Py.split line) in Ht. rewrite Hs in Ht.
    cbn [forallb] in Ht. rewrite !andb_true_iff in Ht. tauto.
Qed.

End Encoding.

Section Rows.

Lemma row_of_record key value1 value2 :
  Csv.row [key; value1; value2]
  = (Csv.field key ++ Csv.comma :: Csv.field value1
       ++ Csv.comma :: Csv.field value2) ++ [Py.CR; Py.LF].
Proof. destruct key; reflexivity. Qed.

Lemma field_encodable t :
  Py.utf8_encodable t = true → Py.utf8_encodable (Csv.field t) = true.
Proof.
  intros Ht. unfold Csv.field. destruct (existsb Csv.special t); [|exact Ht].
  unfold Py.utf8_encodable in *. cbn [forallb].
  rewrite forallb_app. cbn [forallb].
  change (negb (Py.surrogate Csv.quotechar)) with true. cbn [andb].
  rewrite andb_true_r. apply forallb_forall. intros c Hc.
  apply in_flat_map in Hc as (d & Hd & Hc).
  rewrite forallb_forall in Ht. specialize (Ht d Hd).
  unfold Csv.escape in Hc. destruct (d =? Csv.quotechar) eqn:Hq.
  - apply N.eqb_eq in Hq. subst d.
    destruct Hc as [<-|[<-|[]]]; reflexivity.
  - destruct Hc as [<-|[]]. exact Ht.
Qed.

Lemma record_encodable key value1 value2 :
  Py.utf8_encodable key = true → Py.utf8_encodable value1 = true →
  Py.utf8_encodable value2 = true →
  row_encodable (key, value1, value2) = true.
Proof.
  intros Hk H1 H2. unfold row_encodable. rewrite row_of_record.
  apply field_encodable in Hk. apply field_encodable in H1.
  apply field_encodable in H2.
  unfold Py.utf8_encodable in *.
  rewrite !forallb_app. cbn [forallb]. rewrite !forallb_app. cbn [forallb].
  rewrite Hk, H1, H2. reflexivity.
Qed.

(** The report of two dictionaries of encodable names and values has
    encodable rows. *)
Lemma report_encodable `{SetIteration} (A B : gmap (list N) (list N))
    (common_only : bool) :
  map_Forall (λ name value, Py.utf8_encodable name = true
                            ∧ Py.utf8_encodable value = true) A →
  map_Forall (λ name value, Py.utf8_encodable name = true
                            ∧ Py.utf8_encodable value = true) B →
  forallb row_encodable (compare_params A B common_only) = true.
Proof.
  intros HA HB. apply forallb_forall. intros [[key v1] v2] Hin.
  apply list_elem_of_In, elem_of_compare_params in Hin as (Hk & -> & -> & _).
  assert (Hget : ∀ D : gmap (list N) (list N),
    map_Forall (λ name value, Py.utf8_encodable name = true
                              ∧ Py.utf8_encodable value = true) D →
    Py.utf8_encodable (dict_get D key NA) = true).
  { intros D HD. unfold dict_get. destruct (D !! key) as [v|] eqn:E; cbn [default].
    - apply (HD key v E).
    - reflexivity. }
  apply record_encodable; [|apply Hget, HA | apply Hget, HB].
  assert (Hsome : is_Some (A !! key) ∨ is_Some (B !! key)).
  { apply elem_of_keys_to_compare in Hk. destruct common_only; tauto. }
  destruct Hsome as [[v Hv]|[v Hv]]; [apply (HA key v Hv) | apply (HB key v Hv)].
Qed.

End Rows.

(** X20: when both input files can be read and their text holds no
    surrogate (no text decoded from UTF-8 does), the output file can be
    opened, and standard output can encode the path of the output file,
    [main] returns: no row fails to be written. *)
Theorem main_returns `{SetIteration} `{Stdout} (file1 file2 output_file : list N)
    (common_only : bool) (w : World) (text1 text2 : list N) :
  files w !! file1 = Some text1 → files w !! file2 = Some text2 →
  Py.utf8_encodable text1 = true → Py.utf8_encodable text2 = true →
  output_file ∉ unwritable w →
  printable (Py.lit "Differences exported to " ++ output_file) = true →
  (main file1 file2 output_file common_only w).1 = Returns tt
  ∧ forallb row_encodable
      (compare_params (parse_lines (Py.readlines text1))
                      (parse_lines (Py.readlines text2)) common_only) = true.
Proof.
  intros H1 H2 He1 He2 Hw Hp.
  assert (Hdict : ∀ text, Py.utf8_encodable text = true →
    map_Forall (λ name value, Py.utf8_encodable name = true
                              ∧ Py.utf8_encodable value = true)
               (parse_lines (Py.readlines text))).
  { intros text He. apply parse_lines_forallb. unfold Py.readlines.
    apply lines_from_forallb; [reflexivity|].
    apply universal_newlines_forallb; [reflexivity | exact He]. }
  pose proof (report_encodable _ _ common_only (Hdict text1 He1) (Hdict text2 He2))
    as Henc.
  split; [|exact Henc].
  unfold main, mbind, IO_bind, bind.
  rewrite parse_params_run, H1. cbv beta iota.
  rewrite parse_params_run, H2. cbv beta iota zeta.
  destruct (compare_params _ _ common_only) as [|r report].
  - rewrite print_no_differences. reflexivity.
  - rewrite export_to_csv_run.
    destruct (decide (output_file ∈ unwritable w)); [contradiction|].
    rewrite Henc. unfold print. rewrite Hp. reflexivity.
Qed.

Lemma main_returns_witness :
  (main Scenario.file1 Scenario.file2 Scenario.output_file false Scenario.world).1
  = Returns tt
  ∧ forallb row_encodable
      (compare_params (parse_lines (Py.readlines Scenario.text1))
                      (parse_lines (Py.readlines Scenario.text2)) false) = true.
Proof.
  apply (main_returns (H := elements_iteration) (H0 := utf8_stdout)
           Scenario.file1 Scenario.file2 Scenario.output_file false
           Scenario.world Scenario.text1 Scenario.text2).
  - vm_compute. reflexivity.
  - vm_compute. reflexivity.
  - vm_compute. reflexivity.
  - vm_compute. reflexivity.
  - apply not_elem_of_empty.
  - vm_compute. reflexivity.
Defined.
